(** * ragna.assistants._google: the Google Gemini assistant

    A shallow embedding of [src/ragna/assistants/_google.py] and the
    properties of its prompt shaping, request construction and streaming
    entry points. *)

From Stdlib Require Import ZArith QArith Ascii.
From stdpp Require Import base option list strings gmap.

#[local] Set Warnings "-register-all".
Local Open Scope Z_scope.

(** ** Python values the module handles *)

(** Exceptions the module's code can raise, with the argument Python
    attaches to them; [Propagated] is an exception handed through from the
    HTTP collaborator. *)
Inductive exn : Type :=
  | NameError (name : string)
  | KeyError (key : string)
  | IndexError (msg : string)
  | TypeError (msg : string)
  | Propagated (what : string).

Inductive result (A : Type) : Type :=
  | Ok (a : A)
  | Raise (e : exn).
Arguments Ok {A} a.
Arguments Raise {A} e.

Definition result_bind {A B : Type} (r : result A) (k : A -> result B) : result B :=
  match r with
  | Ok a => k a
  | Raise e => Raise e
  end.

#[global] Instance result_ret : MRet result := fun _ a => Ok a.
#[global] Instance result_mbind : MBind result := fun _ _ k r => result_bind r k.

(** The line feed, written [\n] in the source's literals. *)
Definition LF : string := String "010"%char "".

(** [sep.join(items)] of Python's [str]. *)
Fixpoint join (sep : string) (items : list string) : string :=
  match items with
  | [] => ""
  | [x] => x
  | x :: rest => x +:+ sep +:+ join sep rest
  end.

(** Modelled from the spec: [Source] and [Message] of [ragna.core], which
    this module imports and whose declarations are not part of it.  A
    [Message] is an object with the attributes role, content and sources,
    and a [Source] one with the attribute content: this module builds a
    [Message] by keyword call and reads it by attribute in [answer].  The
    role is kept as the string the code compares and looks up. *)
Record Source : Type := mkSource { source_content : string }.

Record Message : Type := mkMessage {
  role : string;
  content : string;
  sources : list Source
}.

(** ** Class configuration *)

(** The concrete assistants.  [GoogleAssistant] itself only declares
    [_MODEL : str]; the two subclasses bind it. *)
Inductive Assistant : Type :=
  | GeminiPro
  | GeminiUltra.

Definition _MODEL (cls : Assistant) : string :=
  match cls with
  | GeminiPro => "gemini-pro"
  | GeminiUltra => "gemini-ultra"
  end.

Definition _API_KEY_ENV_VAR : string := "GOOGLE_API_KEY".

Definition display_name (cls : Assistant) : string :=
  "Google/" +:+ _MODEL cls.

(** ** Prompt shaping *)

Definition _instructize_prompt (prompt : string) (sources : list Source) : string :=
  join LF ([ "Answer the prompt using only the pieces of context below.";
      "If you don't know the answer, just say so. Don't try to make up additional context.";
      "Prompt: " +:+ prompt ]
     ++ ((fun source => LF +:+ source_content source) <$> sources)).

(** ** JSON values and HTTP requests *)

(** A value passed as [json=]: the dict and list displays of the source,
    a dict as its key/value pairs in the order they are written. *)
Inductive jvalue : Type :=
  | JString (s : string)
  | JInt (n : Z)
  | JFloat (x : Q)
  | JArray (items : list jvalue)
  | JObject (members : list (string * jvalue)).

(** The arguments [generate] hands to [self._call_api]. *)
Record HttpRequest : Type := mkHttpRequest {
  method : string;
  url : string;
  params : list (string * string);
  headers : list (string * string);
  json : jvalue;
  parse_kwargs : list (string * string)
}.

(** What the collaborator's stream delivers when iterated: the chunks, and
    the exception that ends the iteration early, if any. *)
Record Stream : Type := mkStream {
  chunks : list string;
  failure : option exn
}.

(** ** Name resolution *)

(** What a module-level name of [_google.py] is bound to. *)
Inductive Binding : Type :=
  | Imported (from_module name : string)
  | ClassDef (name : string)
  | Builtin (name : string).

(** The module's global namespace once its body has run: the three import
    statements and the three class statements. *)
Definition module_globals : gmap string Binding :=
  list_to_map [
    ("AsyncIterator", Imported "typing" "AsyncIterator");
    ("Union", Imported "typing" "Union");
    ("Message", Imported "ragna.core" "Message");
    ("Source", Imported "ragna.core" "Source");
    ("HttpApiAssistant", Imported "._http_api" "HttpApiAssistant");
    ("HttpStreamingProtocol", Imported "._http_api" "HttpStreamingProtocol");
    ("GoogleAssistant", ClassDef "GoogleAssistant");
    ("GeminiPro", ClassDef "GeminiPro");
    ("GeminiUltra", ClassDef "GeminiUltra")
  ].

(** The functions and types of Python's [builtins] module (its exception
    classes and constants are not named anywhere in this module). *)
Definition builtins : list string := [
  "abs"; "aiter"; "all"; "anext"; "any"; "ascii"; "bin"; "bool";
  "breakpoint"; "bytearray"; "bytes"; "callable"; "chr"; "classmethod";
  "compile"; "complex"; "delattr"; "dict"; "dir"; "divmod"; "enumerate";
  "eval"; "exec"; "filter"; "float"; "format"; "frozenset"; "getattr";
  "globals"; "hasattr"; "hash"; "help"; "hex"; "id"; "input"; "int";
  "isinstance"; "issubclass"; "iter"; "len"; "list"; "locals"; "map";
  "max"; "memoryview"; "min"; "next"; "object"; "oct"; "open"; "ord";
  "pow"; "print"; "property"; "range"; "repr"; "reversed"; "round";
  "set"; "setattr"; "slice"; "sorted"; "staticmethod"; "str"; "sum";
  "super"; "tuple"; "type"; "vars"; "zip"; "__import__"
].

(** Loading a name that is not local to a function: the module's globals
    first, then the builtins, else [NameError]. *)
Definition load_global (name : string) : result Binding :=
  match module_globals !! name with
  | Some b => Ok b
  | None =>
      if bool_decide (name ∈ builtins) then Ok (Builtin name)
      else Raise (NameError name)
  end.

(** [d[k]] on a dict with string keys and values. *)
Definition getitem (d : gmap string string) (k : string) : result string :=
  match d !! k with
  | Some v => Ok v
  | None => Raise (KeyError k)
  end.

(** [xs[-1]] on a list. *)
Definition getitem_last {A : Type} (xs : list A) : result A :=
  match last xs with
  | Some x => Ok x
  | None => Raise (IndexError "list index out of range")
  end.

(** [[elt(i) for i in xs if cond(i)]]: the items are visited in order, the
    condition is evaluated first, and the first exception, of the condition
    or of the element, ends the loop. *)
Fixpoint comprehension {A B : Type} (cond : A -> result bool) (elt : A -> result B)
    (xs : list A) : result (list B) :=
  match xs with
  | [] => Ok []
  | i :: rest =>
      keep ← cond i;
      if keep : bool then
        y ← elt i;
        ys ← comprehension cond elt rest;
        Ok (y :: ys)
      else comprehension cond elt rest
  end.

(** ** Asynchronous generators *)

(** What consuming an async generator to its end does, in order: the items
    it yields and the HTTP requests it issues. *)
Inductive effect (Y : Type) : Type :=
  | Yield (y : Y)
  | Request (req : HttpRequest).
Arguments Yield {Y} y.
Arguments Request {Y} req.

(** A run of a generator body: its effects, then either completion with a
    value or the exception that escapes. *)
Record Gen (Y A : Type) : Type := mkGen {
  trace : list (effect Y);
  outcome : result A
}.
Arguments mkGen {Y A} trace outcome.
Arguments trace {Y A} g.
Arguments outcome {Y A} g.

Definition gen_ret {Y A : Type} (a : A) : Gen Y A := mkGen [] (Ok a).

Definition gen_bind {Y A B : Type} (m : Gen Y A) (k : A -> Gen Y B) : Gen Y B :=
  match outcome m with
  | Ok a => mkGen (trace m ++ trace (k a)) (outcome (k a))
  | Raise e => mkGen (trace m) (Raise e)
  end.

#[global] Instance gen_mret {Y : Type} : MRet (Gen Y) := fun _ a => gen_ret a.
#[global] Instance gen_mbind {Y : Type} : MBind (Gen Y) := fun _ _ k m => gen_bind m k.

(** An expression evaluated inside a generator body. *)
Definition lift {Y A : Type} (r : result A) : Gen Y A := mkGen [] r.

(** [yield y] *)
Definition yield {Y : Type} (y : Y) : Gen Y unit := mkGen [Yield y] (Ok tt).

(** [async for chunk in stream: body(chunk)] *)
Fixpoint async_for_chunks {Y : Type} (body : string -> Gen Y unit)
    (items : list string) (ending : option exn) : Gen Y unit :=
  match items with
  | [] => match ending with
          | None => gen_ret tt
          | Some e => lift (Raise e)
          end
  | chunk :: rest => body chunk ≫= fun _ => async_for_chunks body rest ending
  end.

Definition async_for {Y : Type} (stream : Stream) (body : string -> Gen Y unit)
    : Gen Y unit :=
  async_for_chunks body (chunks stream) (failure stream).

(** The yielded items and the issued requests of a run. *)
Definition yields {Y A : Type} (g : Gen Y A) : list Y :=
  omap (fun e => match e with Yield y => Some y | Request _ => None end) (trace g).

Definition requests {Y A : Type} (g : Gen Y A) : list HttpRequest :=
  omap (fun e => match e with Yield _ => None | Request r => Some r end) (trace g).

(** ** The assistant *)

(** An element of the list given to [_render_prompt]: a [Message] object,
    as the signature declares, or a dict with string keys and values, the
    one kind of element the subscripts of the comprehension can read. *)
Inductive PyObject : Type :=
  | MessageObj (m : Message)
  | DictObj (d : gmap string string).

(** [i[key]]: a [Message] object defines no item access, a dict raises
    [KeyError] for a key it does not hold. *)
Definition subscript (i : PyObject) (key : string) : result string :=
  match i with
  | MessageObj _ => Raise (TypeError "'Message' object is not subscriptable")
  | DictObj d => getitem d key
  end.

(** [Union[str, list[Message]]]; the annotation is not enforced when the
    code runs, and [PromptObjects] is a list of any elements. *)
Inductive Prompt : Type :=
  | PromptStr (s : string)
  | PromptMessages (messages : list Message)
  | PromptObjects (items : list PyObject).

(** An instance: its class and the API key its base class stored. *)
Record Self : Type := mkSelf {
  cls : Assistant;
  _api_key : string
}.

(** What [answer] can hand to its consumer: a text fragment, or an async
    generator object that has not been consumed. *)
Inductive Item : Type :=
  | Fragment (s : string)
  | AsyncGenerator (g : Gen string unit).

Definition role_mapping : gmap string string :=
  {[ "user" := "user"; "assistant" := "model" ]}.

(** The filter of the comprehension of [_render_prompt]:
    [i["role"] != "system"]. *)
Definition not_system (i : PyObject) : result bool :=
  r ← subscript i "role";
  Ok (bool_decide (r ≠ "system")).

(** The dict display inside the comprehension of [_render_prompt]:
    [i["content"]] is read first, then [i["role"]] is read and looked up in
    [role_mapping]. *)
Definition render_message (i : PyObject) : result jvalue :=
  text ← subscript i "content";
  r ← subscript i "role";
  mapped ← getitem role_mapping r;
  Ok (JObject [("parts", JArray [JObject [("text", JString text)]]);
               ("role", JString mapped)]).

(** The [safetySettings] and [generationConfig] displays of [generate]. *)
Definition safetySettings : jvalue :=
  JArray ((fun category =>
             JObject [("category", JString ("HARM_CATEGORY_" +:+ category));
                      ("threshold", JString "BLOCK_NONE")])
          <$> ["HARASSMENT"; "HATE_SPEECH"; "SEXUALLY_EXPLICIT"; "DANGEROUS_CONTENT"]).

Definition generationConfig (max_new_tokens : Z) : jvalue :=
  JObject [("temperature", JFloat 0); ("maxOutputTokens", JInt max_new_tokens)].

Section Collaborators.

(** [HttpApiAssistant._call_api], entered with [async with]: the stream
    the provider answers a request with. *)
Variable _call_api : HttpRequest -> Stream.

(** Objects bound to module-level names come from outside this module;
    what reading an attribute of one, or calling one, gives is left to
    the environment. *)
Variable getattr_global : Binding -> string -> result string.
Variable call_with_prompt : Binding -> Prompt -> result jvalue.
Variable call_with_prompt_and_tokens : Binding -> string -> Z -> result Item.

Definition _render_prompt (prompt : Prompt) : result (list jvalue) :=
  messages ← match prompt with
             | PromptStr s =>
                 _ ← load_global "Message";
                 message_role ← load_global "MessageRole";
                 user ← getattr_global message_role "USER";
                 Ok [MessageObj (mkMessage user s [])]
             | PromptMessages messages => Ok (MessageObj <$> messages)
             | PromptObjects items => Ok items
             end;
  comprehension not_system render_message messages.

(** [async with self._call_api(...) as stream]: the request is issued and
    the stream of extracted values is bound. *)
Definition async_with_call_api (request : HttpRequest) : Gen string Stream :=
  mkGen [Request request] (Ok (_call_api request)).

Definition generate (self : Self) (prompt : Prompt) (max_new_tokens : option Z)
    : Gen string unit :=
  let max_new_tokens := default 256 max_new_tokens in
  let url := "https://generativelanguage.googleapis.com/v1beta/models/"
             +:+ _MODEL (cls self) +:+ ":streamGenerateContent" in
  let params := [("key", _api_key self)] in
  let headers := [("Content-Type", "application/json")] in
  renderer ← lift (load_global "_render_prompt");
  contents ← lift (call_with_prompt renderer prompt);
  let body := JObject [("contents", contents);
                       ("safetySettings", safetySettings);
                       ("generationConfig", generationConfig max_new_tokens)] in
  let request := {| method := "POST"; url := url; params := params;
                    headers := headers; json := body;
                    parse_kwargs := [("item", "item.candidates.item.content.parts.item.text")] |} in
  stream ← async_with_call_api request;
  async_for stream (fun chunk => yield chunk).

Definition answer (self : Self) (messages : list Message) (max_new_tokens : option Z)
    : Gen Item unit :=
  let max_new_tokens := default 256 max_new_tokens in
  message ← lift (getitem_last messages);
  let prompt := content message in
  let sources := sources message in
  let expanded_prompt := _instructize_prompt prompt sources in
  generator ← lift (load_global "generate");
  item ← lift (call_with_prompt_and_tokens generator expanded_prompt max_new_tokens);
  yield item.

End Collaborators.

(** ** What the spec asks of a rendered entry and of the instruction block *)

(** The entry the spec gives for a message: its text under [parts] and its
    mapped role. *)
Definition rendered_entry (text mapped : string) : jvalue :=
  JObject [("parts", JArray [JObject [("text", JString text)]]);
           ("role", JString mapped)].

(** The entry the spec gives for an element, if any: a user message is
    rendered as ["user"], an assistant message as ["model"], and a system
    message is dropped. *)
Definition spec_entry (i : PyObject) : option jvalue :=
  match i with
  | MessageObj _ => None
  | DictObj d =>
      r ← d !! "role";
      text ← d !! "content";
      if bool_decide (r = "user") then Some (rendered_entry text "user")
      else if bool_decide (r = "assistant") then Some (rendered_entry text "model")
      else None
  end.

(** The elements the comprehension gets past: a dict that is a system
    message, or a dict with a content whose role is user or assistant. *)
Definition renders_or_drops (i : PyObject) : Prop :=
  match i with
  | MessageObj _ => False
  | DictObj d =>
      d !! "role" = Some "system"
      \/ (is_Some (d !! "content")
          /\ (d !! "role" = Some "user" \/ d !! "role" = Some "assistant"))
  end.

(** The number of elements a prompt holds. *)
Definition prompt_length (prompt : Prompt) : nat :=
  match prompt with
  | PromptStr _ => 1
  | PromptMessages messages => length messages
  | PromptObjects items => length items
  end.

(** Each source's content as a paragraph of its own: a blank line, then the
    content. *)
Fixpoint source_paragraphs (sources : list Source) : string :=
  match sources with
  | [] => ""
  | source :: rest => LF +:+ LF +:+ source_content source +:+ source_paragraphs rest
  end.

(** [occurs_in_order pieces s]: the pieces are substrings of [s], one after
    the other and without overlap. *)
Inductive occurs_in_order : list string -> string -> Prop :=
  | occurs_none (s : string) : occurs_in_order [] s
  | occurs_next (piece : string) (pieces : list string) (before rest : string) :
      occurs_in_order pieces rest ->
      occurs_in_order (piece :: pieces) (before +:+ piece +:+ rest).

(** * Properties *)

(** ** Strings and joins *)

Lemma append_assoc (s1 s2 s3 : string) : (s1 +:+ s2) +:+ s3 = s1 +:+ (s2 +:+ s3).
Proof.
  induction s1 as [|c s1 IH]; [reflexivity|].
  unfold String.append in *; fold String.append in *. by rewrite IH.
Qed.

Lemma append_empty_r (s : string) : s +:+ "" = s.
Proof.
  induction s as [|c s IH]; [reflexivity|].
  unfold String.append in *; fold String.append in *. by rewrite IH.
Qed.

(** [sep.join] of a non-empty list: the head, then every later item behind
    a separator. *)
Definition prefixed (sep : string) (items : list string) : string :=
  foldr (fun item acc => sep +:+ item +:+ acc) "" items.

Lemma join_prefixed (sep x : string) (items : list string) :
  join sep (x :: items) = x +:+ prefixed sep items.
Proof.
  revert x. induction items as [|y items IH]; intros x.
  - simpl. by rewrite append_empty_r.
  - change (join sep (x :: y :: items)) with (x +:+ sep +:+ join sep (y :: items)).
    by rewrite IH.
Qed.

Lemma prefixed_cons (sep x : string) (items : list string) :
  prefixed sep (x :: items) = sep +:+ x +:+ prefixed sep items.
Proof. reflexivity. Qed.

Lemma prefixed_sources (sources : list Source) :
  prefixed LF ((fun source => LF +:+ source_content source) <$> sources)
  = source_paragraphs sources.
Proof.
  induction sources as [|s rest IH]; [reflexivity|].
  simpl. rewrite <- IH. by rewrite !append_assoc.
Qed.

Lemma occurs_in_paragraphs (sources : list Source) :
  occurs_in_order (source_content <$> sources) (source_paragraphs sources).
Proof.
  induction sources as [|s rest IH]; simpl.
  - constructor.
  - rewrite <- append_assoc. by constructor.
Qed.

(** ** instructizePrompt *)

(** C5. The instruction block is the two preamble lines, the line
    [Prompt: <prompt>], and then each source's content as a paragraph of its
    own, in source order: so [Prompt: <prompt>] occurs in it, followed by the
    contents one after the other; without sources it is the preamble and the
    prompt line. *)
Theorem instructize_prompt_layout (prompt : string) (sources : list Source) :
  let preamble :=
    "Answer the prompt using only the pieces of context below." +:+ LF +:+
    "If you don't know the answer, just say so. Don't try to make up additional context."
    +:+ LF in
  _instructize_prompt prompt sources
    = preamble +:+ ("Prompt: " +:+ prompt) +:+ source_paragraphs sources
  /\ occurs_in_order (("Prompt: " +:+ prompt) :: (source_content <$> sources))
       (_instructize_prompt prompt sources)
  /\ _instructize_prompt prompt [] = preamble +:+ "Prompt: " +:+ prompt.
Proof.
  intros preamble.
  assert (Heq : forall srcs, _instructize_prompt prompt srcs
    = preamble +:+ ("Prompt: " +:+ prompt) +:+ source_paragraphs srcs).
  { intros srcs. unfold _instructize_prompt, preamble.
    cbn [app]. rewrite join_prefixed, !prefixed_cons, prefixed_sources.
    by rewrite !append_assoc. }
  split; [apply Heq|]. split.
  - rewrite Heq. constructor. apply occurs_in_paragraphs.
  - rewrite Heq. simpl. by rewrite !append_assoc, append_empty_r.
Qed.

Example instructize_two_sources :
  _instructize_prompt "Summarize this." [mkSource "Doc A text"; mkSource "Doc B text"]
  = "Answer the prompt using only the pieces of context below." +:+ LF +:+
    "If you don't know the answer, just say so. Don't try to make up additional context."
    +:+ LF +:+ "Prompt: Summarize this." +:+ LF +:+ LF +:+ "Doc A text"
    +:+ LF +:+ LF +:+ "Doc B text".
Proof. reflexivity. Qed.

(** ** displayName *)

(** C8. The display name is ["Google/"] followed by the class's model
    identifier: ["Google/gemini-pro"] for GeminiPro and
    ["Google/gemini-ultra"] for GeminiUltra. *)
Theorem display_name_variants :
  display_name GeminiPro = "Google/gemini-pro"
  /\ display_name GeminiUltra = "Google/gemini-ultra"
  /\ forall c : Assistant, display_name c = "Google/" +:+ _MODEL c.
Proof. repeat split. Qed.

(** ** renderPrompt on a list of messages *)

Lemma getitem_role_user : getitem role_mapping "user" = Ok "user".
Proof. reflexivity. Qed.

Lemma getitem_role_assistant : getitem role_mapping "assistant" = Ok "model".
Proof. reflexivity. Qed.

Lemma getitem_role_unknown (r : string) :
  r ≠ "user" -> r ≠ "assistant" -> getitem role_mapping r = Raise (KeyError r).
Proof.
  intros Hu Ha. unfold getitem, role_mapping.
  rewrite lookup_insert_ne by congruence.
  rewrite lookup_singleton_ne by congruence. reflexivity.
Qed.

Lemma render_prompt_messages_eq (getattr_global : Binding -> string -> result string)
    (messages : list Message) :
  _render_prompt getattr_global (PromptMessages messages)
  = comprehension not_system render_message (MessageObj <$> messages).
Proof. reflexivity. Qed.

Lemma render_prompt_objects_eq (getattr_global : Binding -> string -> result string)
    (items : list PyObject) :
  _render_prompt getattr_global (PromptObjects items)
  = comprehension not_system render_message items.
Proof. reflexivity. Qed.

(** The comprehension stops at a Message object: the filter subscripts it
    first. *)
Lemma comprehension_message_object (m : Message) (rest : list PyObject) :
  comprehension not_system render_message (MessageObj m :: rest)
  = Raise (TypeError "'Message' object is not subscriptable").
Proof. reflexivity. Qed.

(** C2, on the code: on every non-empty list of [Message] objects
    [_render_prompt] raises [TypeError] when the filter subscripts the first
    message, whatever the roles are, and returns no entry: neither length,
    order nor role mapping is delivered. *)
Theorem render_prompt_message_objects_raise
    (getattr_global : Binding -> string -> result string)
    (m : Message) (rest : list Message) :
  _render_prompt getattr_global (PromptMessages (m :: rest))
  = Raise (TypeError "'Message' object is not subscriptable").
Proof. rewrite render_prompt_messages_eq. apply comprehension_message_object. Qed.

Example render_prompt_conversation (getattr_global : Binding -> string -> result string) :
  _render_prompt getattr_global
    (PromptObjects [DictObj {[ "role" := "user"; "content" := "Hi" ]};
                    DictObj {[ "role" := "system"; "content" := "Be brief." ]};
                    DictObj {[ "role" := "assistant"; "content" := "Hello" ]}])
  = Ok [JObject [("parts", JArray [JObject [("text", JString "Hi")]]);
                 ("role", JString "user")];
        JObject [("parts", JArray [JObject [("text", JString "Hello")]]);
                 ("role", JString "model")]].
Proof. reflexivity. Qed.

(** C7, on the code: for a list holding one [Message] object whose role is
    none of user, assistant and system, [_render_prompt] raises [TypeError]
    at the filter's subscript; the role lookup that would raise [KeyError]
    for the role is not reached. *)
Theorem render_prompt_unknown_role_type_error
    (getattr_global : Binding -> string -> result string) :
  let run := _render_prompt getattr_global
               (PromptMessages [mkMessage "tool" "42" []]) in
  run = Raise (TypeError "'Message' object is not subscriptable")
  /\ forall key : string, run ≠ Raise (KeyError key).
Proof.
  intros run. unfold run.
  rewrite render_prompt_messages_eq, fmap_cons, comprehension_message_object.
  split; [reflexivity|discriminate].
Qed.

(** ** Names the module does not bind *)

Lemma load_global_Message : load_global "Message" = Ok (Imported "ragna.core" "Message").
Proof. reflexivity. Qed.

Lemma load_global_isinstance : load_global "isinstance" = Ok (Builtin "isinstance").
Proof. reflexivity. Qed.

Lemma load_global_MessageRole : load_global "MessageRole" = Raise (NameError "MessageRole").
Proof. reflexivity. Qed.

Lemma load_global_render_prompt :
  load_global "_render_prompt" = Raise (NameError "_render_prompt").
Proof. reflexivity. Qed.

Lemma load_global_generate : load_global "generate" = Raise (NameError "generate").
Proof. reflexivity. Qed.

(** A generator body whose first expression raises has no effects. *)
Lemma lift_raise_bind {Y A B : Type} (e : exn) (k : A -> Gen Y B) :
  lift (Raise e) ≫= k = mkGen [] (Raise e).
Proof. reflexivity. Qed.

Lemma generate_run (_call_api : HttpRequest -> Stream)
    (call_with_prompt : Binding -> Prompt -> result jvalue)
    (self : Self) (prompt : Prompt) (max_new_tokens : option Z) :
  generate _call_api call_with_prompt self prompt max_new_tokens
  = mkGen [] (Raise (NameError "_render_prompt")).
Proof. unfold generate. rewrite load_global_render_prompt. apply lift_raise_bind. Qed.

Lemma answer_run (call_with_prompt_and_tokens : Binding -> string -> Z -> result Item)
    (self : Self) (messages : list Message) (message : Message)
    (max_new_tokens : option Z) :
  answer call_with_prompt_and_tokens self (messages ++ [message]) max_new_tokens
  = mkGen [] (Raise (NameError "generate")).
Proof.
  unfold answer, getitem_last. rewrite last_snoc, load_global_generate.
  reflexivity.
Qed.

(** ** renderPrompt on a bare string *)

(** C4, on the code: for a bare string [_render_prompt] raises [NameError]
    for [MessageRole], which the module never imports, and returns no
    entry. *)
Theorem render_prompt_string_name_error
    (getattr_global : Binding -> string -> result string) (s : string) :
  _render_prompt getattr_global (PromptStr s) = Raise (NameError "MessageRole").
Proof.
  unfold _render_prompt. rewrite load_global_Message, load_global_MessageRole.
  reflexivity.
Qed.

(** ** generate *)

(** C9. For every instance, prompt and token limit, consuming [generate]
    raises [NameError] for [_render_prompt] while the request body is being
    built: nothing is yielded and no HTTP request is issued, whatever the
    collaborators would do. *)
Theorem generate_name_error (_call_api : HttpRequest -> Stream)
    (call_with_prompt : Binding -> Prompt -> result jvalue)
    (self : Self) (prompt : Prompt) (max_new_tokens : option Z) :
  let run := generate _call_api call_with_prompt self prompt max_new_tokens in
  outcome run = Raise (NameError "_render_prompt")
  /\ requests run = []
  /\ yields run = []
  /\ trace run = [].
Proof. intros run. unfold run. rewrite generate_run. repeat split. Qed.

(** The parts of the request body that do not depend on the prompt. *)
Example safetySettings_value :
  safetySettings
  = JArray [JObject [("category", JString "HARM_CATEGORY_HARASSMENT");
                     ("threshold", JString "BLOCK_NONE")];
            JObject [("category", JString "HARM_CATEGORY_HATE_SPEECH");
                     ("threshold", JString "BLOCK_NONE")];
            JObject [("category", JString "HARM_CATEGORY_SEXUALLY_EXPLICIT");
                     ("threshold", JString "BLOCK_NONE")];
            JObject [("category", JString "HARM_CATEGORY_DANGEROUS_CONTENT");
                     ("threshold", JString "BLOCK_NONE")]].
Proof. reflexivity. Qed.

(** C3, on the code: for GeminiPro, the prompt ["What is 2+2?"] and the
    default token limit, [generate] ends in [NameError] before the dict
    passed as [json=] exists: no request, hence no request body with a
    [generationConfig] or [safetySettings], is handed to the collaborator. *)
Theorem generate_builds_no_body (_call_api : HttpRequest -> Stream)
    (call_with_prompt : Binding -> Prompt -> result jvalue) :
  json <$> requests (generate _call_api call_with_prompt (mkSelf GeminiPro "secret")
                       (PromptStr "What is 2+2?") None) = [].
Proof. by rewrite generate_run. Qed.

(** C6, on the code: for GeminiUltra and a one-message conversation,
    [generate] issues no request at all, so no POST to the
    streamGenerateContent URL reaches the collaborator, even one that would
    stream fragments back. *)
Theorem generate_issues_no_request
    (call_with_prompt : Binding -> Prompt -> result jvalue) :
  let run := generate (fun _ => mkStream ["4"] None) call_with_prompt
               (mkSelf GeminiUltra "secret")
               (PromptMessages [mkMessage "user" "What is 2+2?" []]) (Some 64) in
  Forall (fun e : effect string => forall req : HttpRequest, e ≠ Request req) (trace run)
  /\ requests run = []
  /\ yields run = [].
Proof. intros run. unfold run. rewrite generate_run. repeat split. constructor. Qed.

(** ** answer *)

(** C10. On the empty list [answer] raises [IndexError] at [messages[-1]]:
    the run has no effect at all, and is the same whatever the object bound
    to [generate] would do, so nothing after the selection has run. *)
Theorem answer_empty_index_error
    (call_with_prompt_and_tokens : Binding -> string -> Z -> result Item)
    (self : Self) (max_new_tokens : option Z) :
  let run := answer call_with_prompt_and_tokens self [] max_new_tokens in
  run = mkGen [] (Raise (IndexError "list index out of range"))
  /\ requests run = []
  /\ yields run = []
  /\ forall k : Message -> Gen Item unit,
       lift (getitem_last []) ≫= k = mkGen [] (Raise (IndexError "list index out of range")).
Proof. intros run. repeat split. Qed.

(** C1, on the code: for the one-message conversation of the spec's
    scenario, [answer] selects the message and expands its prompt, then
    raises [NameError] for [generate]: it yields nothing and never runs
    [generate], whose own run on the expanded text ends differently. *)
Theorem answer_does_not_delegate (_call_api : HttpRequest -> Stream)
    (call_with_prompt : Binding -> Prompt -> result jvalue)
    (call_with_prompt_and_tokens : Binding -> string -> Z -> result Item) :
  let self := mkSelf GeminiPro "secret" in
  let messages := [mkMessage "user" "What is 2+2?" []] in
  let run := answer call_with_prompt_and_tokens self messages None in
  run = mkGen [] (Raise (NameError "generate"))
  /\ yields run = []
  /\ outcome run
     ≠ outcome (generate _call_api call_with_prompt self
                  (PromptStr (_instructize_prompt "What is 2+2?" [])) (Some 256)).
Proof.
  intros self messages run. unfold run, messages.
  rewrite (answer_run _ self [] (mkMessage "user" "What is 2+2?" [])), generate_run.
  repeat split. discriminate.
Qed.

(** * Further properties of the module *)

(** ** renderPrompt on lists: one element at a time *)

Lemma renders_or_drops_dec (i : PyObject) : Decision (renders_or_drops i).
Proof. destruct i; apply _. Defined.

Lemma not_system_dict (d : gmap string string) (r : string) :
  d !! "role" = Some r ->
  not_system (DictObj d) = Ok (bool_decide (r ≠ "system")).
Proof. intros H. unfold not_system, subscript, getitem. by rewrite H. Qed.

Lemma render_message_dict (d : gmap string string) (r text : string) :
  d !! "role" = Some r -> d !! "content" = Some text ->
  render_message (DictObj d)
  = result_bind (getitem role_mapping r) (fun mapped => Ok (rendered_entry text mapped)).
Proof. intros Hr Ht. unfold render_message, subscript, getitem. by rewrite Ht, Hr. Qed.

Lemma comprehension_cons {A B : Type} (cond : A -> result bool) (elt : A -> result B)
    (i : A) (rest : list A) :
  comprehension cond elt (i :: rest)
  = result_bind (cond i) (fun keep =>
      if keep : bool then
        result_bind (elt i) (fun y =>
          result_bind (comprehension cond elt rest) (fun ys => Ok (y :: ys)))
      else comprehension cond elt rest).
Proof. reflexivity. Qed.

(** A dict without a role stops the comprehension at the filter. *)
Lemma comprehension_no_role (d : gmap string string) (rest : list PyObject) :
  d !! "role" = None ->
  comprehension not_system render_message (DictObj d :: rest) = Raise (KeyError "role").
Proof.
  intros H. rewrite comprehension_cons. unfold not_system, subscript, getitem.
  by rewrite H.
Qed.

(** A dict that is not a system message and has no content stops it at the
    element, before the role is looked up. *)
Lemma comprehension_no_content (d : gmap string string) (r : string)
    (rest : list PyObject) :
  d !! "role" = Some r -> r ≠ "system" -> d !! "content" = None ->
  comprehension not_system render_message (DictObj d :: rest)
  = Raise (KeyError "content").
Proof.
  intros Hr Hsys Ht. rewrite comprehension_cons, (not_system_dict d r Hr).
  rewrite bool_decide_true by done. cbn [result_bind].
  unfold render_message, subscript, getitem. by rewrite Ht.
Qed.

(** A dict with a content and a role that is neither system nor in
    [role_mapping] stops it at the role lookup. *)
Lemma comprehension_unknown_role (d : gmap string string) (r text : string)
    (rest : list PyObject) :
  d !! "role" = Some r -> d !! "content" = Some text ->
  r ≠ "user" -> r ≠ "assistant" -> r ≠ "system" ->
  comprehension not_system render_message (DictObj d :: rest) = Raise (KeyError r).
Proof.
  intros Hr Ht Hu Ha Hsys. rewrite comprehension_cons, (not_system_dict d r Hr).
  rewrite bool_decide_true by done. cbn [result_bind].
  rewrite (render_message_dict d r text Hr Ht), getitem_role_unknown by done.
  reflexivity.
Qed.

(** An element the comprehension gets past adds the entry the spec gives
    for it, if any, in front of the entries of the rest. *)
Lemma comprehension_step (i : PyObject) (rest : list PyObject) :
  renders_or_drops i ->
  comprehension not_system render_message (i :: rest)
  = result_bind (comprehension not_system render_message rest)
      (fun ys => Ok (option_list (spec_entry i) ++ ys)).
Proof.
  destruct i as [m|d]; [done|]. intros [Hsys|[[text Ht] [Hr|Hr]]].
  - rewrite comprehension_cons, (not_system_dict d "system" Hsys).
    rewrite bool_decide_false by (intros Hne; by apply Hne). cbn [result_bind].
    unfold spec_entry. rewrite Hsys. cbn [mbind option_bind].
    destruct (d !! "content"); cbn [mbind option_bind];
      rewrite ?bool_decide_false by discriminate;
      by destruct (comprehension not_system render_message rest).
  - rewrite comprehension_cons, (not_system_dict d "user" Hr).
    rewrite bool_decide_true by discriminate. cbn [result_bind].
    rewrite (render_message_dict d "user" text Hr Ht), getitem_role_user.
    unfold spec_entry. rewrite Hr, Ht. cbn [mbind option_bind result_bind].
    by rewrite bool_decide_true by done.
  - rewrite comprehension_cons, (not_system_dict d "assistant" Hr).
    rewrite bool_decide_true by discriminate. cbn [result_bind].
    rewrite (render_message_dict d "assistant" text Hr Ht), getitem_role_assistant.
    unfold spec_entry. rewrite Hr, Ht. cbn [mbind option_bind result_bind].
    rewrite bool_decide_false by discriminate. by rewrite bool_decide_true by done.
Qed.

(** Any other element makes it raise. *)
Lemma comprehension_stops (i : PyObject) (rest : list PyObject) :
  ¬ renders_or_drops i ->
  exists e : exn, comprehension not_system render_message (i :: rest) = Raise e.
Proof.
  destruct i as [m|d]; intros Hnot.
  - eexists. apply comprehension_message_object.
  - destruct (d !! "role") as [r|] eqn:Hr.
    + destruct (decide (r = "system")) as [->|Hsys]; [destruct Hnot; by left|].
      destruct (d !! "content") as [text|] eqn:Ht.
      * destruct (decide (r = "user")) as [->|Hu].
        { destruct Hnot. right. rewrite Ht, Hr. split; [by eexists|by left]. }
        destruct (decide (r = "assistant")) as [->|Ha].
        { destruct Hnot. right. rewrite Ht, Hr. split; [by eexists|by right]. }
        eexists. by apply (comprehension_unknown_role d r text).
      * eexists. by apply (comprehension_no_content d r).
    + eexists. by apply comprehension_no_role.
Qed.

Lemma comprehension_ok_inv (items : list PyObject) (out : list jvalue) :
  comprehension not_system render_message items = Ok out ->
  Forall renders_or_drops items /\ out = omap spec_entry items.
Proof.
  revert out. induction items as [|i rest IH]; intros out Hok.
  - injection Hok as <-. split; [constructor|reflexivity].
  - destruct (renders_or_drops_dec i) as [Hi|Hi].
    + rewrite (comprehension_step i rest Hi) in Hok.
      destruct (comprehension not_system render_message rest) as [ys|e];
        [|discriminate].
      destruct (IH ys eq_refl) as [Hrest ->]. injection Hok as <-.
      split; [by constructor|]. cbn [omap list_omap].
      by destruct (spec_entry i).
    + destruct (comprehension_stops i rest Hi) as [e He].
      rewrite He in Hok. discriminate.
Qed.

Lemma comprehension_ok (items : list PyObject) :
  Forall renders_or_drops items ->
  comprehension not_system render_message items = Ok (omap spec_entry items).
Proof.
  induction 1 as [|i rest Hi _ IH]; [reflexivity|].
  rewrite (comprehension_step i rest Hi), IH. cbn [result_bind omap list_omap].
  by destruct (spec_entry i).
Qed.

Lemma comprehension_app {A B : Type} (cond : A -> result bool) (elt : A -> result B)
    (xs ys : list A) :
  comprehension cond elt (xs ++ ys)
  = result_bind (comprehension cond elt xs) (fun out_xs =>
      result_bind (comprehension cond elt ys) (fun out_ys => Ok (out_xs ++ out_ys))).
Proof.
  induction xs as [|x xs IH].
  - cbn [app comprehension result_bind]. by destruct (comprehension cond elt ys).
  - rewrite <- app_comm_cons, !comprehension_cons.
    destruct (cond x) as [[|]|e]; cbn [result_bind]; [|exact IH|reflexivity].
    destruct (elt x) as [y|e]; [|reflexivity]. cbn [result_bind]. rewrite IH.
    destruct (comprehension cond elt xs) as [out_xs|e]; [|reflexivity].
    cbn [result_bind]. by destruct (comprehension cond elt ys).
Qed.

(** ** renderPrompt on lists: success, failure and shape *)

(** X1. [_render_prompt] returns a list for a list of elements exactly when
    every element is a dict that is a system message, or a dict with a
    content whose role is user or assistant; the list is then the rendering
    of the user and assistant messages in order.  A [Message] object, a dict
    without a role, a dict that misses its content and any other role make
    the whole call raise, whatever the other elements are. *)
Theorem render_prompt_succeeds_iff (getattr_global : Binding -> string -> result string)
    (items : list PyObject) (out : list jvalue) :
  _render_prompt getattr_global (PromptObjects items) = Ok out
  <-> Forall renders_or_drops items /\ out = omap spec_entry items.
Proof.
  rewrite render_prompt_objects_eq. split; [apply comprehension_ok_inv|].
  intros [Hall ->]. by apply comprehension_ok.
Qed.

Lemma system_dict_entry (i : PyObject) :
  renders_or_drops i ->
  spec_entry i = None <-> exists d, i = DictObj d /\ d !! "role" = Some "system".
Proof.
  destruct i as [m|d]; [done|]. intros Hi. split.
  - intros Hnone. exists d. split; [reflexivity|].
    destruct Hi as [Hsys|[[text Ht] [Hr|Hr]]]; [exact Hsys|..];
      unfold spec_entry in Hnone; rewrite Hr, Ht in Hnone;
      cbn [mbind option_bind] in Hnone.
    + by rewrite bool_decide_true in Hnone by done.
    + rewrite bool_decide_false in Hnone by discriminate.
      by rewrite bool_decide_true in Hnone by done.
  - intros (d' & Hd & Hsys). injection Hd as <-. unfold spec_entry.
    rewrite Hsys. cbn [mbind option_bind].
    destruct (d !! "content"); cbn [mbind option_bind]; [|reflexivity].
    by rewrite !bool_decide_false by discriminate.
Qed.

(** X2. [_render_prompt] returns the empty list exactly for a list made
    only of dicts that are system messages (the empty list included): such a
    conversation renders to no contents, without an error.  For [Message]
    objects the empty list is the only one it returns anything for. *)
Theorem render_prompt_empty_iff (getattr_global : Binding -> string -> result string) :
  (forall items : list PyObject,
     _render_prompt getattr_global (PromptObjects items) = Ok []
     <-> Forall (fun i => exists d, i = DictObj d /\ d !! "role" = Some "system") items)
  /\ (forall (messages : list Message) (out : list jvalue),
        _render_prompt getattr_global (PromptMessages messages) = Ok out
        <-> messages = [] /\ out = []).
Proof.
  split.
  - intros items. rewrite render_prompt_objects_eq. split.
    + intros Hok. apply comprehension_ok_inv in Hok as [Hall Hnil].
      induction Hall as [|i rest Hi _ IH]; [constructor|].
      cbn [omap list_omap] in Hnil.
      destruct (spec_entry i) eqn:Hentry; [discriminate|].
      constructor; [by apply system_dict_entry|by apply IH].
    + intros Hall.
      assert (Hwf : Forall renders_or_drops items).
      { eapply Forall_impl; [exact Hall|]. intros i (d & -> & Hsys). by left. }
      rewrite (comprehension_ok items Hwf). f_equal.
      induction Hall as [|i rest Hi _ IH]; [reflexivity|].
      apply Forall_cons in Hwf as [Hwi Hwf]. cbn [omap list_omap].
      apply (system_dict_entry i Hwi) in Hi. rewrite Hi. by apply IH.
  - intros messages out. destruct messages as [|m rest].
    + split; [intros Hok; by injection Hok as <-|by intros [_ ->]].
    + rewrite render_prompt_messages_eq, fmap_cons, comprehension_message_object.
      split; [discriminate|by intros [? _]].
Qed.

Lemma spec_entry_shape (i : PyObject) (entry : jvalue) :
  spec_entry i = Some entry ->
  exists text r : string,
    entry = JObject [("parts", JArray [JObject [("text", JString text)]]);
                     ("role", JString r)]
    /\ (r = "user" \/ r = "model").
Proof.
  destruct i as [m|d]; [discriminate|]. unfold spec_entry.
  destruct (d !! "role") as [r|]; [|discriminate].
  destruct (d !! "content") as [text|]; [|discriminate].
  cbn [mbind option_bind].
  destruct (bool_decide (r = "user")); [|destruct (bool_decide (r = "assistant"))];
    intros Hsome; try discriminate;
    injection Hsome as <-; eexists _, _; (split; [reflexivity|]); auto.
Qed.

Lemma comprehension_shape (items : list PyObject) (out : list jvalue) :
  comprehension not_system render_message items = Ok out ->
  (length out <= length items)%nat
  /\ Forall (fun entry => exists text r : string,
               entry = JObject [("parts", JArray [JObject [("text", JString text)]]);
                                ("role", JString r)]
               /\ (r = "user" \/ r = "model")) out.
Proof.
  intros Hok. apply comprehension_ok_inv in Hok as [_ ->]. clear. split.
  - induction items as [|i rest IH]; [done|]. cbn [omap list_omap].
    destruct (spec_entry i); simpl; lia.
  - induction items as [|i rest IH]; [constructor|]. cbn [omap list_omap].
    destruct (spec_entry i) as [entry|] eqn:Hentry; [|exact IH].
    constructor; [by apply (spec_entry_shape i)|exact IH].
Qed.

(** X3. Whatever list [_render_prompt] returns, for any prompt, it has at
    most one entry per element, and every entry is a dict with one text part
    and a role that is ["user"] or ["model"]: no entry carries the role
    system or assistant. *)
Theorem render_prompt_output_shape (getattr_global : Binding -> string -> result string)
    (prompt : Prompt) (out : list jvalue) :
  _render_prompt getattr_global prompt = Ok out ->
  (length out <= prompt_length prompt)%nat
  /\ Forall (fun entry => exists text r : string,
               entry = JObject [("parts", JArray [JObject [("text", JString text)]]);
                                ("role", JString r)]
               /\ (r = "user" \/ r = "model")) out.
Proof.
  destruct prompt as [s|messages|items]; intros Hok.
  - unfold _render_prompt in Hok.
    rewrite load_global_Message, load_global_MessageRole in Hok. discriminate.
  - rewrite render_prompt_messages_eq in Hok.
    apply comprehension_shape in Hok. by rewrite length_fmap in Hok.
  - rewrite render_prompt_objects_eq in Hok. by apply comprehension_shape.
Qed.

Lemma render_prompt_output_shape_witness :
  let out := [JObject [("parts", JArray [JObject [("text", JString "Hi")]]);
                       ("role", JString "user")];
              JObject [("parts", JArray [JObject [("text", JString "Hello")]]);
                       ("role", JString "model")]] in
  (length out <= 3)%nat
  /\ Forall (fun entry => exists text r : string,
               entry = JObject [("parts", JArray [JObject [("text", JString text)]]);
                                ("role", JString r)]
               /\ (r = "user" \/ r = "model")) out.
Proof.
  apply (render_prompt_output_shape (fun _ _ => Ok "user")
           (PromptObjects
              [DictObj {[ "role" := "user"; "content" := "Hi"; "sources" := "Doc A text" ]};
               DictObj {[ "role" := "system"; "content" := "Be brief." ]};
               DictObj {[ "role" := "assistant"; "content" := "Hello" ]}])).
  reflexivity.
Defined.

(** ** renderPrompt on lists: what it reads and how it composes *)

Lemma comprehension_ext (items items' : list PyObject) :
  Forall2 (fun i i' => subscript i "role" = subscript i' "role"
                       /\ subscript i "content" = subscript i' "content") items items' ->
  comprehension not_system render_message items
  = comprehension not_system render_message items'.
Proof.
  induction 1 as [|i i' rest rest' [Hr Hc] _ IH]; [reflexivity|].
  rewrite !comprehension_cons, IH. unfold not_system, render_message.
  by rewrite Hr, Hc.
Qed.

(** X4. [_render_prompt] reads only the role and the content of each
    element: two lists of messages with the same roles and contents, and
    more generally two lists whose elements answer the subscripts ["role"]
    and ["content"] alike, give the same result, the same exception
    included; sources and any other key never reach the rendered contents. *)
Theorem render_prompt_ignores_sources (getattr_global : Binding -> string -> result string) :
  (forall messages messages' : list Message,
     role <$> messages = role <$> messages' ->
     content <$> messages = content <$> messages' ->
     _render_prompt getattr_global (PromptMessages messages)
     = _render_prompt getattr_global (PromptMessages messages'))
  /\ (forall items items' : list PyObject,
        Forall2 (fun i i' => subscript i "role" = subscript i' "role"
                             /\ subscript i "content" = subscript i' "content")
          items items' ->
        _render_prompt getattr_global (PromptObjects items)
        = _render_prompt getattr_global (PromptObjects items')).
Proof.
  split.
  - intros messages messages' Hr _. rewrite !render_prompt_messages_eq.
    apply comprehension_ext. apply (f_equal length) in Hr.
    rewrite !length_fmap in Hr. revert messages' Hr.
    induction messages as [|m rest IH]; intros [|m' rest'] Hlen; try discriminate.
    + constructor.
    + rewrite !fmap_cons. constructor; [by split|]. apply IH. by injection Hlen.
  - intros items items' H. rewrite !render_prompt_objects_eq.
    by apply comprehension_ext.
Qed.

Lemma render_prompt_ignores_sources_witness :
  _render_prompt (fun _ _ => Ok "user")
    (PromptObjects [DictObj {[ "role" := "user"; "content" := "Summarize this.";
                              "sources" := "Doc A text" ]};
                    DictObj {[ "role" := "assistant"; "content" := "Done." ]}])
  = _render_prompt (fun _ _ => Ok "user")
      (PromptObjects [DictObj {[ "role" := "user"; "content" := "Summarize this." ]};
                      DictObj {[ "role" := "assistant"; "content" := "Done.";
                                "id" := "7" ]}]).
Proof.
  apply (proj2 (render_prompt_ignores_sources (fun _ _ => Ok "user"))).
  repeat constructor.
Defined.

(** X5. Rendering a conversation made of two parts is rendering the first
    part, then the second, and appending the results, for lists of messages
    and for lists of any elements: the entries of an earlier part of the
    history are a prefix of the entries of the longer one, and an exception
    raised in the first part is the exception of the whole, whatever
    follows. *)
Theorem render_prompt_app (getattr_global : Binding -> string -> result string) :
  (forall earlier later : list Message,
     _render_prompt getattr_global (PromptMessages (earlier ++ later))
     = (out_earlier ← _render_prompt getattr_global (PromptMessages earlier);
        out_later ← _render_prompt getattr_global (PromptMessages later);
        Ok (out_earlier ++ out_later)))
  /\ (forall earlier later : list PyObject,
        _render_prompt getattr_global (PromptObjects (earlier ++ later))
        = (out_earlier ← _render_prompt getattr_global (PromptObjects earlier);
           out_later ← _render_prompt getattr_global (PromptObjects later);
           Ok (out_earlier ++ out_later))).
Proof.
  split; intros earlier later.
  - rewrite !render_prompt_messages_eq, fmap_app. apply comprehension_app.
  - rewrite !render_prompt_objects_eq. apply comprehension_app.
Qed.

(** X6. A dict that is a system message is dropped wherever it stands:
    inserting one at any position of a list changes neither the entries
    [_render_prompt] returns nor the exception it raises. *)
Theorem render_prompt_system_dropped (getattr_global : Binding -> string -> result string)
    (before after : list PyObject) (m : PyObject) :
  subscript m "role" = Ok "system" ->
  _render_prompt getattr_global (PromptObjects (before ++ m :: after))
  = _render_prompt getattr_global (PromptObjects (before ++ after)).
Proof.
  intros Hm. rewrite !render_prompt_objects_eq, !comprehension_app.
  rewrite (comprehension_cons _ _ m after). unfold not_system at 2.
  by rewrite Hm.
Qed.

Lemma render_prompt_system_dropped_witness :
  _render_prompt (fun _ _ => Ok "user")
    (PromptObjects ([DictObj {[ "role" := "user"; "content" := "Hi" ]}]
                    ++ DictObj {[ "role" := "system" ]}
                       :: [DictObj {[ "role" := "assistant"; "content" := "Hello" ]}]))
  = _render_prompt (fun _ _ => Ok "user")
      (PromptObjects ([DictObj {[ "role" := "user"; "content" := "Hi" ]}]
                      ++ [DictObj {[ "role" := "assistant"; "content" := "Hello" ]}])).
Proof.
  apply (render_prompt_system_dropped (fun _ _ => Ok "user")). reflexivity.
Defined.

(** ** renderPrompt on lists of dicts: which error comes first *)

Lemma comprehension_after_prefix (pre rest : list PyObject) (e : exn) :
  Forall renders_or_drops pre ->
  comprehension not_system render_message rest = Raise e ->
  comprehension not_system render_message (pre ++ rest) = Raise e.
Proof.
  intros Hpre He. rewrite comprehension_app, (comprehension_ok pre Hpre), He.
  reflexivity.
Qed.

(** X14. For dicts, an unknown role is a mapping error: when the elements
    before it are rendered or dropped, a dict with a content whose role is
    none of user, assistant and system makes [_render_prompt] raise
    [KeyError] for that role, whatever follows it; no entry is returned. *)
Theorem render_prompt_dict_unknown_role
    (getattr_global : Binding -> string -> result string)
    (pre post : list PyObject) (d : gmap string string) (r : string) :
  Forall renders_or_drops pre ->
  d !! "role" = Some r ->
  r ≠ "user" -> r ≠ "assistant" -> r ≠ "system" ->
  is_Some (d !! "content") ->
  _render_prompt getattr_global (PromptObjects (pre ++ DictObj d :: post))
  = Raise (KeyError r).
Proof.
  intros Hpre Hr Hu Ha Hsys [text Ht]. rewrite render_prompt_objects_eq.
  apply comprehension_after_prefix; [exact Hpre|].
  by apply (comprehension_unknown_role d r text).
Qed.

Lemma render_prompt_dict_unknown_role_witness :
  _render_prompt (fun _ _ => Ok "user")
    (PromptObjects ([DictObj {[ "role" := "user"; "content" := "Hi" ]}]
                    ++ DictObj {[ "role" := "tool"; "content" := "42" ]}
                       :: [DictObj {[ "role" := "function"; "content" := "f" ]}]))
  = Raise (KeyError "tool").
Proof.
  apply (render_prompt_dict_unknown_role (fun _ _ => Ok "user")
           [DictObj {[ "role" := "user"; "content" := "Hi" ]}]
           [DictObj {[ "role" := "function"; "content" := "f" ]}]
           {[ "role" := "tool"; "content" := "42" ]} "tool").
  - constructor; [|constructor]. right. split; [by eexists|by left].
  - reflexivity.
  - discriminate.
  - discriminate.
  - discriminate.
  - by eexists.
Defined.

(** X15. For dicts, a missing key comes before the role mapping: when the
    elements before it are rendered or dropped, a dict without a role makes
    [_render_prompt] raise [KeyError] for ["role"], and a dict whose role is
    not system and that has no content makes it raise [KeyError] for
    ["content"], also when the role is one [role_mapping] does not know. *)
Theorem render_prompt_dict_missing_key
    (getattr_global : Binding -> string -> result string)
    (pre post : list PyObject) (d : gmap string string) :
  Forall renders_or_drops pre ->
  (d !! "role" = None ->
   _render_prompt getattr_global (PromptObjects (pre ++ DictObj d :: post))
   = Raise (KeyError "role"))
  /\ (forall r : string, d !! "role" = Some r -> r ≠ "system" ->
      d !! "content" = None ->
      _render_prompt getattr_global (PromptObjects (pre ++ DictObj d :: post))
      = Raise (KeyError "content")).
Proof.
  intros Hpre. split.
  - intros Hr. rewrite render_prompt_objects_eq.
    apply comprehension_after_prefix; [exact Hpre|]. by apply comprehension_no_role.
  - intros r Hr Hsys Ht. rewrite render_prompt_objects_eq.
    apply comprehension_after_prefix; [exact Hpre|].
    by apply (comprehension_no_content d r).
Qed.

Lemma render_prompt_dict_missing_key_witness :
  _render_prompt (fun _ _ => Ok "user")
    (PromptObjects ([DictObj {[ "role" := "system" ]}]
                    ++ DictObj {[ "role" := "tool" ]} :: []))
  = Raise (KeyError "content").
Proof.
  apply (proj2 (render_prompt_dict_missing_key (fun _ _ => Ok "user")
                  [DictObj {[ "role" := "system" ]}] [] {[ "role" := "tool" ]}
                  ltac:(constructor; [by left|constructor])) "tool").
  - reflexivity.
  - discriminate.
  - reflexivity.
Defined.

(** ** instructizePrompt: boundaries, growth and size *)

Lemma instructize_prompt_eq (prompt : string) (sources : list Source) :
  _instructize_prompt prompt sources
  = "Answer the prompt using only the pieces of context below." +:+ LF +:+
    "If you don't know the answer, just say so. Don't try to make up additional context."
    +:+ LF +:+ "Prompt: " +:+ prompt +:+ source_paragraphs sources.
Proof.
  unfold _instructize_prompt. cbn [app].
  rewrite join_prefixed, !prefixed_cons, prefixed_sources.
  by rewrite !append_assoc.
Qed.

Lemma source_paragraphs_app (sources more : list Source) :
  source_paragraphs (sources ++ more)
  = source_paragraphs sources +:+ source_paragraphs more.
Proof.
  induction sources as [|s rest IH]; [reflexivity|].
  cbn [app source_paragraphs]. by rewrite IH, !append_assoc.
Qed.

Lemma length_append (s1 s2 : string) :
  String.length (s1 +:+ s2) = (String.length s1 + String.length s2)%nat.
Proof.
  induction s1 as [|c s1 IH]; [reflexivity|].
  unfold String.append; fold String.append. simpl. by rewrite IH.
Qed.

Lemma append_cancel_r (s1 s2 t : string) : s1 +:+ t = s2 +:+ t -> s1 = s2.
Proof.
  revert s2. induction s1 as [|c s1 IH]; intros [|c' s2] H.
  - reflexivity.
  - apply (f_equal String.length) in H. rewrite !length_append in H. simpl in H. lia.
  - apply (f_equal String.length) in H. rewrite !length_append in H. simpl in H. lia.
  - unfold String.append in H; fold String.append in H.
    injection H as -> H. by rewrite (IH s2 H).
Qed.

(** X7. The block does not mark where the prompt ends and the context
    begins: a prompt that itself ends in a blank line and some text gives the
    same block as the shorter prompt with that text as its first source. *)
Theorem instructize_prompt_boundary (prompt text : string) (sources : list Source) :
  _instructize_prompt (prompt +:+ LF +:+ LF +:+ text) sources
  = _instructize_prompt prompt (mkSource text :: sources).
Proof.
  rewrite !instructize_prompt_eq. cbn [source_paragraphs source_content].
  by rewrite !append_assoc.
Qed.

(** X8. Adding sources only appends to the block: with more sources at the
    end, the block for the first sources is kept unchanged and is followed by
    a blank line and the content of each added source, in order. *)
Theorem instructize_prompt_more_sources (prompt : string) (sources more : list Source) :
  _instructize_prompt prompt (sources ++ more)
  = _instructize_prompt prompt sources +:+ source_paragraphs more.
Proof.
  rewrite !instructize_prompt_eq, source_paragraphs_app.
  by rewrite !append_assoc.
Qed.

(** X9. With the same sources, two different prompts never give the same
    block. *)
Theorem instructize_prompt_prompt_inj (prompt prompt' : string) (sources : list Source) :
  prompt ≠ prompt' ->
  _instructize_prompt prompt sources ≠ _instructize_prompt prompt' sources.
Proof.
  intros Hne Heq. apply Hne. rewrite !instructize_prompt_eq in Heq.
  repeat apply String.app_inj in Heq.
  by apply append_cancel_r in Heq.
Qed.

Lemma instructize_prompt_prompt_inj_witness :
  _instructize_prompt "What is 2+2?" [mkSource "Doc A text"]
  ≠ _instructize_prompt "What is 2+3?" [mkSource "Doc A text"].
Proof.
  apply instructize_prompt_prompt_inj. discriminate.
Defined.

(** X10. The size of the block: 150 characters of preamble and prompt
    label, the prompt, and for each source its content and the two line feeds
    before it, an empty content included; the block is never empty. *)
Theorem instructize_prompt_length (prompt : string) (sources : list Source) :
  String.length (_instructize_prompt prompt sources)
  = (150 + String.length prompt
     + sum_list ((fun source => 2 + String.length (source_content source)) <$> sources))%nat.
Proof.
  rewrite instructize_prompt_eq, !length_append.
  assert (Hp : String.length (source_paragraphs sources)
    = sum_list ((fun source => (2 + String.length (source_content source))%nat) <$> sources)).
  { induction sources as [|s rest IH]; [reflexivity|].
    cbn [source_paragraphs fmap list_fmap sum_list sum_list_with].
    rewrite !length_append, IH. simpl. lia. }
  rewrite Hp. simpl. lia.
Qed.

(** ** displayName and answer *)

(** X11. The two assistants never share a display name. *)
Theorem display_name_distinct (c c' : Assistant) :
  c ≠ c' -> display_name c ≠ display_name c'.
Proof. destruct c, c'; intros Hne Heq; try done; discriminate. Qed.

Lemma display_name_distinct_witness : display_name GeminiPro ≠ display_name GeminiUltra.
Proof. apply display_name_distinct. discriminate. Defined.

(** X12. For every list of messages, every instance and every token limit,
    consuming [answer] yields nothing and issues no HTTP request: it raises
    [IndexError] on the empty list and [NameError] for [generate] on every
    other list, whatever the messages hold. *)
Theorem answer_never_yields
    (call_with_prompt_and_tokens : Binding -> string -> Z -> result Item)
    (self : Self) (messages : list Message) (max_new_tokens : option Z) :
  let run := answer call_with_prompt_and_tokens self messages max_new_tokens in
  run = mkGen [] (Raise (match messages with
                         | [] => IndexError "list index out of range"
                         | _ :: _ => NameError "generate"
                         end))
  /\ yields run = []
  /\ requests run = [].
Proof.
  intros run.
  assert (Hrun : run = mkGen [] (Raise (match messages with
                                        | [] => IndexError "list index out of range"
                                        | _ :: _ => NameError "generate"
                                        end))).
  { unfold run. destruct messages as [|m rest] using rev_ind; [reflexivity|].
    rewrite answer_run. by destruct rest. }
  rewrite Hrun. repeat split.
Qed.
